(** * Nuclear Shielding Design Suite: a shallow embedding of [app.py]

    The physics engine, the materials table, the comparison loop of the
    "Performance Curves" tab and the load block of the "Mass & Load" tab,
    over the real numbers.  Python floats are modelled as exact reals, numpy
    arrays as lists updated element by element, and the two exceptions the
    core can raise ([KeyError] on a dict lookup, [ZeroDivisionError] on a
    float division) as the error branch of a small result monad.  The load
    block is embedded a second time over Rocq's primitive binary64 floats,
    where the rounding of each operation matters. *)

From Stdlib Require Import Reals Lra Psatz List String ZArith.
From Stdlib Require PrimFloat.
Import (notations) PrimFloat.
Import ListNotations.
Open Scope string_scope.
Open Scope R_scope.

(** ** Python exceptions and the result monad *)

Inductive py_error : Type :=
| KeyError (key : string)
| ZeroDivisionError.

Inductive result (A : Type) : Type :=
| Ok (a : A)
| Err (e : py_error).
Arguments Ok {A} a.
Arguments Err {A} e.

Definition bind {A B : Type} (r : result A) (k : A -> result B) : result B :=
  match r with
  | Ok a => k a
  | Err e => Err e
  end.

Notation "x <- r ;; k" := (bind r (fun x => k))
  (at level 61, r at next level, right associativity).

(** [x / y] on Python floats: raises [ZeroDivisionError] when [y] is zero. *)
Definition py_div (x y : R) : result R :=
  if Req_dec_T y 0 then Err ZeroDivisionError else Ok (x / y).

(** [for x in xs: ...] where the body may raise: stops at the first error. *)
Fixpoint map_res {A B : Type} (f : A -> result B) (xs : list A) : result (list B) :=
  match xs with
  | [] => Ok []
  | x :: xs' => y <- f x ;; ys <- map_res f xs' ;; Ok (y :: ys)
  end.

(** ** The materials database ([MATERIALS], lines 11-22) *)

Record material := {
  mu : R;          (* attenuation, cm^-1 *)
  density : R;     (* g/cm^3 *)
  color : string;
  b_slope : R      (* build-up factor slope *)
}.

(** A Python dict literal, in insertion order. *)
Definition MATERIALS : list (string * material) := [
  ("Lead (Pb)", {| mu := 0.771; density := 11.34; color := "#7f8c8d"; b_slope := 1.2 |});
  ("Tungsten Heavy Alloy (WHA)", {| mu := 1.250; density := 18.50; color := "#2c3e50"; b_slope := 1.1 |});
  ("Depleted Uranium (DU)", {| mu := 1.300; density := 19.00; color := "#1abc9c"; b_slope := 1.05 |});
  ("Lead-Antimony Alloy", {| mu := 0.750; density := 11.00; color := "#95a5a6"; b_slope := 1.25 |});
  ("Iron (Fe)", {| mu := 0.443; density := 7.87; color := "#a04000"; b_slope := 1.8 |});
  ("Concrete (Standard)", {| mu := 0.151; density := 2.35; color := "#bdc3c7"; b_slope := 2.5 |});
  ("Water (H2O)", {| mu := 0.070; density := 1.00; color := "#3498db"; b_slope := 3.2 |});
  ("Inconel 718", {| mu := 0.480; density := 8.19; color := "#f39c12"; b_slope := 1.7 |});
  ("Wood's Metal", {| mu := 0.650; density := 9.60; color := "#e74c3c"; b_slope := 1.5 |});
  ("Tantalum (Ta)", {| mu := 0.950; density := 16.69; color := "#9b59b6"; b_slope := 1.15 |})
].

(** [d.get(k)]: the value stored under [k], if any. *)
Fixpoint lookup (k : string) (d : list (string * material)) : option material :=
  match d with
  | [] => None
  | (k', v) :: d' => if String.eqb k k' then Some v else lookup k d'
  end.

(** [MATERIALS[k]]: raises [KeyError] when [k] is absent. *)
Definition getitem (d : list (string * material)) (k : string) : result material :=
  match lookup k d with
  | Some v => Ok v
  | None => Err (KeyError k)
  end.

(** ** Elementwise numpy operations on float arrays *)

Definition np_scale (c : R) (xs : list R) : list R := map (fun x => c * x) xs.
Definition np_add_scalar (c : R) (xs : list R) : list R := map (fun x => c + x) xs.
Definition np_neg (xs : list R) : list R := map Ropp xs.
Definition np_exp (xs : list R) : list R := map exp xs.
(** [a * b] on two arrays of the same shape. *)
Definition np_mul (xs ys : list R) : list R := map (fun p => fst p * snd p) (combine xs ys).

(** ** Physics engine ([calculate_attenuation], lines 39-42) *)

Definition calculate_attenuation (thickness_range : list R) (mu b_slope : R) : list R :=
  let mfp := np_scale mu thickness_range in
  let B := np_add_scalar 1 (np_scale b_slope mfp) in
  np_mul B (np_exp (np_neg mfp)).

(** ** HVL and TVL of the reference table (lines 75-76) *)

Definition hvl (m : material) : R := ln 2 / mu m.
Definition tvl (m : material) : R := ln 10 / mu m.

(** ** Comparison tab (lines 49-83) *)

(** [np.linspace(start, stop, num)] with [num >= 2]. *)
Definition linspace (start stop : R) (num : nat) : list R :=
  map (fun i => start + INR i * ((stop - start) / INR (num - 1))) (seq 0 num).

(** One pass of the plotting loop: [props = MATERIALS[name]], then the curve. *)
Definition plot_series (x_vals : list R) (name : string) : result (string * list R) :=
  props <- getitem MATERIALS name ;;
  Ok (name, calculate_attenuation x_vals (mu props) (b_slope props)).

(** [round(x, 2)] on the numpy float64 [x] (numpy's [around]): scale by 100,
    round to the nearest integer with ties to even, scale back.  [up y] is the
    least integer strictly above [y], so [up y - 1] is the floor of [y]. *)
Definition round_half_even (y : R) : Z :=
  let f := (up y - 1)%Z in
  let d := y - IZR f in
  if Rlt_dec d (1 / 2) then f
  else if Rlt_dec (1 / 2) d then (f + 1)%Z
  else if Z.even f then f else (f + 1)%Z.

Definition py_round2 (x : R) : R := IZR (round_half_even (x * 100)) / 100.

(** A row of the engineering reference table (lines 77-82). *)
Record table_row := {
  row_material : string;
  row_density : R;
  row_hvl : R;
  row_tvl : R
}.

Definition table_row_of (m : string) : result table_row :=
  props <- getitem MATERIALS m ;;
  Ok {| row_material := m; row_density := density props;
        row_hvl := py_round2 (hvl props); row_tvl := py_round2 (tvl props) |}.

(** The comparison tab for the selection [selected_mats] and the sidebar's
    [max_thick]: the plotting loop, then the table loop. *)
Definition build_comparison (selected_mats : list string) (max_thick : R)
  : result (list (string * list R) * list table_row) :=
  let x_vals := linspace 0 max_thick 200 in
  series <- map_res (plot_series x_vals) selected_mats ;;
  table_data <- map_res table_row_of selected_mats ;;
  Ok (series, table_data).

(** ** Mass & Load tab (lines 100-118) *)

(** The branch taken at line 115: [st.success] or [st.error] with the overage. *)
Inductive verdict : Type :=
| SAFE
| EXCEEDED (overage : R).

Record load_result := {
  area : R;
  volume_m3 : R;
  density_kg_m3 : R;
  total_weight : R;
  loading : R;
  percent_capacity : R;
  status : verdict
}.

Definition compute_load (target_mat : string) (target_thick wall_h wall_w floor_max : R)
  : result load_result :=
  let area := wall_h * wall_w in
  let volume_m3 := area * (target_thick / 100) in
  props <- getitem MATERIALS target_mat ;;
  let density_kg_m3 := density props * 1000 in
  let total_weight := volume_m3 * density_kg_m3 in
  loading <- py_div total_weight area ;;
  q <- py_div loading floor_max ;;
  let percent_capacity := q * 100 in
  let status := if Rlt_dec floor_max loading then EXCEEDED (loading - floor_max) else SAFE in
  Ok {| area := area; volume_m3 := volume_m3; density_kg_m3 := density_kg_m3;
        total_weight := total_weight; loading := loading;
        percent_capacity := percent_capacity; status := status |}.

(** ** The Mass & Load block in binary64 arithmetic

    Python floats are IEEE binary64 numbers with round-to-nearest-even, which
    Rocq's primitive floats compute exactly.  This second embedding of lines
    100-118 keeps every rounding step of the program. *)

Module Binary64.
Import PrimFloat.
Local Open Scope float_scope.
Local Set Warnings "-inexact-float".

Record material_f := {
  mu_f : float;
  density_f : float;
  color_f : string;
  b_slope_f : float
}.

(** The dict literal of lines 11-22, its numbers read as binary64. *)
Definition MATERIALS_f : list (string * material_f) := [
  ("Lead (Pb)", {| mu_f := 0.771; density_f := 11.34; color_f := "#7f8c8d"; b_slope_f := 1.2 |});
  ("Tungsten Heavy Alloy (WHA)", {| mu_f := 1.250; density_f := 18.50; color_f := "#2c3e50"; b_slope_f := 1.1 |});
  ("Depleted Uranium (DU)", {| mu_f := 1.300; density_f := 19.00; color_f := "#1abc9c"; b_slope_f := 1.05 |});
  ("Lead-Antimony Alloy", {| mu_f := 0.750; density_f := 11.00; color_f := "#95a5a6"; b_slope_f := 1.25 |});
  ("Iron (Fe)", {| mu_f := 0.443; density_f := 7.87; color_f := "#a04000"; b_slope_f := 1.8 |});
  ("Concrete (Standard)", {| mu_f := 0.151; density_f := 2.35; color_f := "#bdc3c7"; b_slope_f := 2.5 |});
  ("Water (H2O)", {| mu_f := 0.070; density_f := 1.00; color_f := "#3498db"; b_slope_f := 3.2 |});
  ("Inconel 718", {| mu_f := 0.480; density_f := 8.19; color_f := "#f39c12"; b_slope_f := 1.7 |});
  ("Wood's Metal", {| mu_f := 0.650; density_f := 9.60; color_f := "#e74c3c"; b_slope_f := 1.5 |});
  ("Tantalum (Ta)", {| mu_f := 0.950; density_f := 16.69; color_f := "#9b59b6"; b_slope_f := 1.15 |})
].

Fixpoint lookup_f (k : string) (d : list (string * material_f)) : option material_f :=
  match d with
  | [] => None
  | (k', v) :: d' => if String.eqb k k' then Some v else lookup_f k d'
  end.

Definition getitem_f (d : list (string * material_f)) (k : string) : result material_f :=
  match lookup_f k d with
  | Some v => Ok v
  | None => Err (KeyError k)
  end.

(** [x / y] on floats: [ZeroDivisionError] when [y] is [0.0] or [-0.0]. *)
Definition py_fdiv (x y : float) : result float :=
  if PrimFloat.eqb y 0 then Err ZeroDivisionError else Ok (x / y).

Inductive verdict_f : Type :=
| SAFE_f
| EXCEEDED_f (overage : float).

Record load_result_f := {
  area_f : float;
  volume_m3_f : float;
  density_kg_m3_f : float;
  total_weight_f : float;
  loading_f : float;
  percent_capacity_f : float;
  status_f : verdict_f
}.

(** [target_thick] is the slider's int; [target_thick / 100] is Python's
    correctly rounded true division, the binary64 quotient of the two exact
    operands. *)
Definition compute_load_f (target_mat : string)
  (target_thick wall_h wall_w floor_max : float) : result load_result_f :=
  let area := wall_h * wall_w in
  let volume_m3 := area * (target_thick / 100) in
  props <- getitem_f MATERIALS_f target_mat ;;
  let density_kg_m3 := density_f props * 1000 in
  let total_weight := volume_m3 * density_kg_m3 in
  loading <- py_fdiv total_weight area ;;
  q <- py_fdiv loading floor_max ;;
  let percent_capacity := q * 100 in
  let status := if PrimFloat.ltb floor_max loading
                then EXCEEDED_f (loading - floor_max) else SAFE_f in
  Ok {| area_f := area; volume_m3_f := volume_m3; density_kg_m3_f := density_kg_m3;
        total_weight_f := total_weight; loading_f := loading;
        percent_capacity_f := percent_capacity; status_f := status |}.

End Binary64.

(** ** Widget inputs of the two tabs *)

(** [list(MATERIALS.keys())]: the options of the multiselect (line 51) and of
    the selectbox (line 92). *)
Definition material_options : list string := map fst MATERIALS.

(** The multiselect's [default=] list (line 52). *)
Definition default_selection : list string :=
  ["Lead (Pb)"; "Tungsten Heavy Alloy (WHA)"; "Concrete"; "Iron (Fe)"].

(** ** Basic facts *)

Lemma calculate_attenuation_map (ts : list R) (mu b : R) :
  calculate_attenuation ts mu b = map (fun t => (1 + b * (mu * t)) * exp (- (mu * t))) ts.
Proof.
  unfold calculate_attenuation, np_mul, np_exp, np_neg, np_add_scalar, np_scale.
  induction ts as [|t ts IH]; cbn; [reflexivity|].
  f_equal; exact IH.
Qed.

Lemma getitem_lookup (k : string) :
  getitem MATERIALS k = match lookup k MATERIALS with Some v => Ok v | None => Err (KeyError k) end.
Proof. reflexivity. Qed.

Lemma py_div_ok (x y : R) : y <> 0 -> py_div x y = Ok (x / y).
Proof. intro H; unfold py_div; destruct (Req_dec_T y 0); [contradiction | reflexivity]. Qed.

Lemma py_div_zero (x : R) : py_div x 0 = Err ZeroDivisionError.
Proof. unfold py_div; destruct (Req_dec_T 0 0); [reflexivity | congruence]. Qed.

Lemma compute_load_ok (name : string) (m : material) (t h w f : R) :
  lookup name MATERIALS = Some m -> h * w <> 0 -> f <> 0 ->
  compute_load name t h w f =
    Ok {| area := h * w; volume_m3 := h * w * (t / 100);
          density_kg_m3 := density m * 1000;
          total_weight := h * w * (t / 100) * (density m * 1000);
          loading := h * w * (t / 100) * (density m * 1000) / (h * w);
          percent_capacity := h * w * (t / 100) * (density m * 1000) / (h * w) / f * 100;
          status := if Rlt_dec f (h * w * (t / 100) * (density m * 1000) / (h * w))
                    then EXCEEDED (h * w * (t / 100) * (density m * 1000) / (h * w) - f)
                    else SAFE |}.
Proof.
  intros Hm Ha Hf.
  unfold compute_load, getitem; rewrite Hm; cbn [bind].
  rewrite (py_div_ok _ _ Ha); cbn [bind].
  rewrite (py_div_ok _ _ Hf); reflexivity.
Qed.

(** The areal load does not depend on the wall's area. *)
Lemma loading_simpl (h w t d : R) :
  h * w <> 0 -> h * w * (t / 100) * (d * 1000) / (h * w) = d * 1000 * t / 100.
Proof. intro H; field; split; intro E; apply H; rewrite E; ring. Qed.

Example lookup_lead : lookup "Lead (Pb)" MATERIALS =
  Some {| mu := 0.771; density := 11.34; color := "#7f8c8d"; b_slope := 1.2 |}.
Proof. reflexivity. Qed.

Example lookup_concrete : lookup "Concrete" MATERIALS = None.
Proof. reflexivity. Qed.

Example linspace_5 : linspace 0 50 5 = [0; 12.5; 25; 37.5; 50].
Proof. unfold linspace; cbn -[INR]; repeat f_equal; simpl INR; lra. Qed.

(** Beyond the point where the derivative [exp (-x) * (b - 1 - b * x)] of
    [x |-> (1 + b * x) * exp (-x)] turns negative, the curve falls strictly. *)
Lemma transmission_falls (mu b t1 t2 : R) :
  0 < mu -> 0 <= b -> t1 < t2 -> b <= 1 + b * (mu * t1) ->
  (1 + b * (mu * t2)) * exp (- (mu * t2)) < (1 + b * (mu * t1)) * exp (- (mu * t1)).
Proof.
  intros Hmu Hb Ht Hth.
  set (d := mu * t2 - mu * t1).
  assert (Hd : 0 < d) by (unfold d; nra).
  assert (Hsplit : exp (- (mu * t1)) = exp (- (mu * t2)) * exp d).
  { rewrite <- exp_plus; f_equal; unfold d; ring. }
  rewrite Hsplit.
  assert (He : 1 + d < exp d) by (apply exp_ineq1; lra).
  assert (Hpos : 0 < exp (- (mu * t2))) by apply exp_pos.
  assert (H1 : 0 < 1 + b * (mu * t1)).
  { destruct (Rle_lt_or_eq_dec 0 b Hb) as [Hb' | Hb']; [lra | subst b; lra]. }
  assert (Hlt : 1 + b * (mu * t2) < (1 + b * (mu * t1)) * exp d).
  { assert (E : mu * t2 = mu * t1 + d) by (unfold d; ring).
    rewrite E. nra. }
  nra.
Qed.

Lemma transmission_bounds (mu b t : R) :
  0 < mu -> 0 <= b -> 0 <= t ->
  exp (- (mu * t)) <= (1 + b * (mu * t)) * exp (- (mu * t)) /\
  0 < (1 + b * (mu * t)) * exp (- (mu * t)).
Proof.
  intros Hmu Hb Ht.
  pose proof (exp_pos (- (mu * t))) as He.
  assert (0 <= b * (mu * t)) by (apply Rmult_le_pos; [lra | nra]).
  split; nra.
Qed.

(** ** Physics engine claims *)

(** C1: for every attenuation coefficient [mu], build-up slope [b_slope] and
    thickness [t] of the range, the transmission is
    [(1 + b_slope * mu * t) * exp (-(mu * t))], that is [B * exp (-mfp)] with
    [mfp = mu * t] and [B = 1 + b_slope * mfp]. *)
Theorem calculate_attenuation_formula (ts : list R) (mu b_slope : R) :
  calculate_attenuation ts mu b_slope =
  map (fun t => (1 + b_slope * mu * t) * exp (- (mu * t))) ts.
Proof.
  rewrite calculate_attenuation_map.
  apply map_ext; intro t; rewrite Rmult_assoc; reflexivity.
Qed.

(** C6: at thickness 0 the transmission is exactly 1, for every material
    (indeed for every [mu] and [b_slope]). *)
Theorem calculate_attenuation_at_zero (mu b_slope : R) :
  calculate_attenuation [0] mu b_slope = [1].
Proof.
  rewrite calculate_attenuation_map; cbn.
  rewrite Rmult_0_r, Ropp_0, exp_0; f_equal; ring.
Qed.

(** C4: for a material [m] with [mu > 0], [hvl m = ln 2 / mu] and
    [tvl m = ln 10 / mu] (lines 75-76; both read [mu] alone, not the
    thickness range), and [HVL < TVL]. *)
Theorem hvl_lt_tvl (m : material) :
  0 < mu m ->
  hvl m = ln 2 / mu m /\ tvl m = ln 10 / mu m /\ hvl m < tvl m.
Proof.
  intros Hmu.
  split; [reflexivity|]. split; [reflexivity|].
  unfold hvl, tvl, Rdiv.
  apply Rmult_lt_compat_r; [apply Rinv_0_lt_compat; exact Hmu|].
  apply ln_increasing; lra.
Qed.

(** C5: for [mu > 0] and [b_slope >= 0], the transmission falls strictly
    between two thicknesses [t1 < t2] as soon as [mu * t1] is past the point
    where the derivative of [(1 + b_slope * mfp) * exp (- mfp)] turns
    negative ([b_slope <= 1 + b_slope * mfp]); in particular whenever
    [mu * t1 > 2]. *)
Theorem transmission_decreasing_past_threshold (mu b_slope : R) :
  0 < mu -> 0 <= b_slope ->
  (forall t1 t2, t1 < t2 -> b_slope <= 1 + b_slope * (mu * t1) ->
     match calculate_attenuation [t1; t2] mu b_slope with
     | [y1; y2] => y2 < y1 | _ => False end) /\
  (forall t1 t2, t1 < t2 -> 2 < mu * t1 ->
     match calculate_attenuation [t1; t2] mu b_slope with
     | [y1; y2] => y2 < y1 | _ => False end).
Proof.
  intros Hmu Hb; split; intros t1 t2 Ht Hth;
    rewrite calculate_attenuation_map; cbn;
    apply transmission_falls; try assumption.
  nra.
Qed.

(** C10: for [mu > 0], [b_slope >= 0] and a range of non-negative
    thicknesses, every transmission lies at or above the narrow-beam
    [exp (-(mu * t))] and is strictly positive. *)
Theorem transmission_above_narrow_beam (ts : list R) (mu b_slope : R) :
  0 < mu -> 0 <= b_slope -> Forall (fun t => 0 <= t) ts ->
  Forall2 (fun t y => exp (- (mu * t)) <= y /\ 0 < y) ts
          (calculate_attenuation ts mu b_slope).
Proof.
  intros Hmu Hb Hts; rewrite calculate_attenuation_map.
  induction Hts as [|t ts Ht Hts IH]; cbn; constructor; [|exact IH].
  apply transmission_bounds; assumption.
Qed.

(** ** Mass & Load claims *)

(** C2: for a known material and a non-degenerate wall ([height * width <> 0])
    and floor limit ([floor_max <> 0]), the load block computes
    [area = h * w], [volume = area * (t / 100)],
    [total_weight = volume * (density * 1000)], [loading = total_weight / area]
    and [percent_capacity = loading / floor_max * 100]; for Lead with
    [h = 2], [w = 3], [t = 10] it gives [volume = 0.6], [total_weight = 6804]
    and [loading = 1134]. *)
Theorem compute_load_fields (name : string) (m : material) (t h w f : R) :
  lookup name MATERIALS = Some m -> h * w <> 0 -> f <> 0 ->
  (exists r, compute_load name t h w f = Ok r /\
     area r = h * w /\ volume_m3 r = area r * (t / 100) /\
     total_weight r = volume_m3 r * (density m * 1000) /\
     loading r = total_weight r / area r /\
     percent_capacity r = loading r / f * 100) /\
  (exists r, compute_load "Lead (Pb)" 10 2 3 f = Ok r /\
     volume_m3 r = 0.6 /\ total_weight r = 6804 /\ loading r = 1134).
Proof.
  intros Hm Ha Hf; split.
  - eexists; split; [exact (compute_load_ok name m t h w f Hm Ha Hf)|].
    cbn; repeat split; reflexivity.
  - eexists; split;
      [exact (compute_load_ok "Lead (Pb)" _ 10 2 3 f lookup_lead ltac:(lra) Hf)|].
    cbn; repeat split; lra.
Qed.

(** C3: for a known material, a non-degenerate wall and a positive floor
    limit, the verdict is [SAFE] exactly when [loading <= floor_max], and
    otherwise [EXCEEDED] carrying [loading - floor_max]. *)
Theorem compute_load_verdict (name : string) (m : material) (t h w f : R) :
  lookup name MATERIALS = Some m -> h * w <> 0 -> 0 < f ->
  exists r, compute_load name t h w f = Ok r /\
    (status r = SAFE <-> loading r <= f) /\
    (f < loading r -> status r = EXCEEDED (loading r - f)).
Proof.
  intros Hm Ha Hf.
  eexists; split; [exact (compute_load_ok name m t h w f Hm Ha ltac:(lra))|].
  cbn; destruct (Rlt_dec f _) as [Hlt | Hge]; split.
  - split; [discriminate | intro; lra].
  - intros _; reflexivity.
  - split; [intros _; lra | intros _; reflexivity].
  - intro; contradiction.
Qed.

(** Lines 100-105 in binary64, at Lead, 10 cm, floor limit 1134: a 2 x 3 m
    wall and a 2.5 x 3 m wall. *)
Lemma lead_walls_binary64 :
  exists r1 r2,
    Binary64.compute_load_f "Lead (Pb)" 10 2 3 1134 = Ok r1 /\
    Binary64.compute_load_f "Lead (Pb)" 10 2.5 3 1134 = Ok r2 /\
    Binary64.loading_f r1 = 0x1.1b80000000001p+10%float /\
    Binary64.loading_f r2 = 1134%float /\
    Binary64.status_f r1 = Binary64.EXCEEDED_f 0x1p-42%float /\
    Binary64.status_f r2 = Binary64.SAFE_f.
Proof. do 2 eexists; repeat split; vm_compute; reflexivity. Qed.

(** C9 (counterexample): in the program's binary64 arithmetic two Lead walls
    of 10 cm with different areas get different loads (1134.0000000000002 on
    2 x 3 m, 1134.0 on 2.5 x 3 m) and opposite verdicts against 1134. *)
Lemma compute_load_area_dependent_in_floats :
  exists r1 r2,
    Binary64.compute_load_f "Lead (Pb)" 10 2 3 1134 = Ok r1 /\
    Binary64.compute_load_f "Lead (Pb)" 10 2.5 3 1134 = Ok r2 /\
    Binary64.loading_f r1 <> Binary64.loading_f r2 /\
    (exists o, Binary64.status_f r1 = Binary64.EXCEEDED_f o) /\
    Binary64.status_f r2 = Binary64.SAFE_f.
Proof.
  destruct lead_walls_binary64 as [r1 [r2 [H1 [H2 [L1 [L2 [S1 S2]]]]]]].
  exists r1, r2; split; [exact H1|]; split; [exact H2|].
  split; [rewrite L1, L2; vm_compute; discriminate|].
  split; [eexists; exact S1 | exact S2].
Qed.

(** C9 (amended): in exact arithmetic two walls of the same material and
    thickness with positive heights and widths get the same loading
    [density * 1000 * t / 100], whatever their areas, hence the same
    percentage and verdict; in the program's binary64 arithmetic the loads
    of walls of different areas can differ in their last bits, which flips
    the verdict at a floor limit equal to the nominal load (Lead, 10 cm,
    limit 1134: 2 x 3 m is EXCEEDED, 2.5 x 3 m is SAFE). *)
Theorem compute_load_area_independent_exact (name : string) (m : material)
  (t f h1 w1 h2 w2 : R) :
  lookup name MATERIALS = Some m -> 0 < h1 -> 0 < w1 -> 0 < h2 -> 0 < w2 -> f <> 0 ->
  (exists r1 r2, compute_load name t h1 w1 f = Ok r1 /\
    compute_load name t h2 w2 f = Ok r2 /\
    loading r1 = density m * 1000 * t / 100 /\
    loading r1 = loading r2 /\
    percent_capacity r1 = percent_capacity r2 /\
    status r1 = status r2) /\
  (exists r1 r2,
    Binary64.compute_load_f "Lead (Pb)" 10 2 3 1134 = Ok r1 /\
    Binary64.compute_load_f "Lead (Pb)" 10 2.5 3 1134 = Ok r2 /\
    Binary64.loading_f r1 = 0x1.1b80000000001p+10%float /\
    Binary64.loading_f r2 = 1134%float /\
    Binary64.status_f r1 = Binary64.EXCEEDED_f 0x1p-42%float /\
    Binary64.status_f r2 = Binary64.SAFE_f).
Proof.
  intros Hm H1 W1 H2 W2 Hf; split; [|exact lead_walls_binary64].
  assert (A1 : h1 * w1 <> 0) by nra.
  assert (A2 : h2 * w2 <> 0) by nra.
  do 2 eexists.
  split; [exact (compute_load_ok name m t h1 w1 f Hm A1 Hf)|].
  split; [exact (compute_load_ok name m t h2 w2 f Hm A2 Hf)|].
  cbn; rewrite (loading_simpl _ _ _ _ A1), (loading_simpl _ _ _ _ A2).
  repeat split; reflexivity.
Qed.

(** Where the load block raises: [KeyError] for an unknown material,
    otherwise [ZeroDivisionError] exactly when the area or the floor limit
    is zero. *)
Lemma compute_load_err (name : string) (m : material) (t h w f : R) (e : py_error) :
  lookup name MATERIALS = Some m ->
  compute_load name t h w f = Err e <-> e = ZeroDivisionError /\ (h * w = 0 \/ f = 0).
Proof.
  intros Hm.
  destruct (Req_dec_T (h * w) 0) as [Ha | Ha];
  [| destruct (Req_dec_T f 0) as [Hf | Hf]].
  - unfold compute_load, getitem; rewrite Hm; cbn [bind]; rewrite Ha, py_div_zero; cbn.
    split; [intro E; inversion E; auto | intros [-> _]; reflexivity].
  - unfold compute_load, getitem; rewrite Hm; cbn [bind].
    rewrite (py_div_ok _ _ Ha); cbn [bind]; rewrite Hf, py_div_zero; cbn.
    split; [intro E; inversion E; auto | intros [-> _]; reflexivity].
  - rewrite (compute_load_ok name m t h w f Hm Ha Hf).
    split; [discriminate | intros [_ [C | C]]; contradiction].
Qed.

(** C7 (counterexample): the load block does not reject a negative height,
    a zero thickness or a negative floor limit: each returns a result. *)
Lemma compute_load_no_validation :
  (exists r, compute_load "Lead (Pb)" 10 (-1) 3 1000 = Ok r /\
             status r = EXCEEDED 134) /\
  (exists r, compute_load "Lead (Pb)" 0 2 3 1000 = Ok r /\ status r = SAFE) /\
  (exists r, compute_load "Lead (Pb)" 10 2 3 (-5) = Ok r).
Proof.
  split; [|split]; eexists.
  - split; [exact (compute_load_ok "Lead (Pb)" _ 10 (-1) 3 1000 lookup_lead
                     ltac:(intro; lra) ltac:(intro; lra))|].
    cbn; destruct (Rlt_dec _ _) as [_ | C]; [f_equal; lra | lra].
  - split; [exact (compute_load_ok "Lead (Pb)" _ 0 2 3 1000 lookup_lead
                     ltac:(intro; lra) ltac:(intro; lra))|].
    cbn; destruct (Rlt_dec _ _) as [C | _]; [lra | reflexivity].
  - exact (compute_load_ok "Lead (Pb)" _ 10 2 3 (-5) lookup_lead
             ltac:(intro; lra) ltac:(intro; lra)).
Qed.

(** C7 (amended): for a known material the load block validates nothing; it
    raises only [ZeroDivisionError], exactly when [height * width = 0] or
    [floor_max = 0], and returns a result for every other input (negative
    dimensions, zero or negative thickness, negative floor limit included). *)
Theorem compute_load_fails_only_on_zero_division (name : string) (m : material)
  (t h w f : R) :
  lookup name MATERIALS = Some m ->
  (forall e, compute_load name t h w f = Err e <->
             e = ZeroDivisionError /\ (h * w = 0 \/ f = 0)) /\
  (h * w <> 0 -> f <> 0 -> exists r, compute_load name t h w f = Ok r).
Proof.
  intros Hm; split.
  - intro e; exact (compute_load_err name m t h w f e Hm).
  - intros Ha Hf; eexists; exact (compute_load_ok name m t h w f Hm Ha Hf).
Qed.

(** ** Comparison claims *)

Lemma plot_series_known (x_vals : list R) (name : string) (m : material) :
  lookup name MATERIALS = Some m ->
  plot_series x_vals name = Ok (name, calculate_attenuation x_vals (mu m) (b_slope m)).
Proof. intro Hm; unfold plot_series, getitem; rewrite Hm; reflexivity. Qed.

Lemma plot_series_unknown (x_vals : list R) (name : string) :
  lookup name MATERIALS = None -> plot_series x_vals name = Err (KeyError name).
Proof. intro Hm; unfold plot_series, getitem; rewrite Hm; reflexivity. Qed.

(** The plotting loop raises [KeyError] on the first selected name that is
    not a key of [MATERIALS]. *)
Lemma plot_loop_unknown (x_vals : list R) (names : list string) :
  (exists n, In n names /\ lookup n MATERIALS = None) ->
  exists n, In n names /\ lookup n MATERIALS = None /\
            map_res (plot_series x_vals) names = Err (KeyError n).
Proof.
  induction names as [|a names IH]; intros [n [Hin Hn]]; [destruct Hin|].
  destruct (lookup a MATERIALS) as [m|] eqn:Ha.
  - destruct IH as [n' [Hin' [Hn' Herr]]].
    { exists n; split; [|exact Hn].
      destruct Hin as [<- | Hin]; [congruence | exact Hin]. }
    exists n'; split; [right; exact Hin'|]; split; [exact Hn'|].
    cbn; rewrite (plot_series_known _ _ _ Ha); cbn; rewrite Herr; reflexivity.
  - exists a; split; [left; reflexivity|]; split; [exact Ha|].
    cbn; rewrite (plot_series_unknown _ _ Ha); reflexivity.
Qed.

(** C8: when some selected identifier is not a key of [MATERIALS], the
    comparison fails with the lookup error [KeyError] (the spec's
    [UnknownMaterialError]) naming a selected unknown identifier, rather than
    dropping it; in particular [build_comparison ["nonexistent"]] fails with
    [KeyError "nonexistent"]. *)
Theorem build_comparison_unknown_material (names : list string) (max_thick : R) :
  (exists n, In n names /\ lookup n MATERIALS = None) ->
  (exists n, In n names /\ lookup n MATERIALS = None /\
             build_comparison names max_thick = Err (KeyError n)) /\
  build_comparison ["nonexistent"] max_thick = Err (KeyError "nonexistent").
Proof.
  intros Hex; split.
  - destruct (plot_loop_unknown (linspace 0 max_thick 200) names Hex)
      as [n [Hin [Hn Herr]]].
    exists n; split; [exact Hin|]; split; [exact Hn|].
    unfold build_comparison; rewrite Herr; reflexivity.
  - reflexivity.
Qed.

(** ** Witnesses: the claims' theorems at concrete inputs *)

Lemma hvl_lt_tvl_witness :
  exists m, lookup "Lead (Pb)" MATERIALS = Some m /\ 0 < mu m /\
  hvl m = ln 2 / mu m /\ tvl m = ln 10 / mu m /\ hvl m < tvl m.
Proof.
  eexists; split; [exact lookup_lead|].
  assert (Hmu : 0 < mu {| mu := 0.771; density := 11.34; color := "#7f8c8d"; b_slope := 1.2 |})
    by (cbn; lra).
  split; [exact Hmu|].
  exact (hvl_lt_tvl _ Hmu).
Defined.

Lemma transmission_decreasing_past_threshold_witness :
  0 < 0.771 /\ 0 <= 1.2 /\
  (forall t1 t2, t1 < t2 -> 1.2 <= 1 + 1.2 * (0.771 * t1) ->
     match calculate_attenuation [t1; t2] 0.771 1.2 with
     | [y1; y2] => y2 < y1 | _ => False end) /\
  (forall t1 t2, t1 < t2 -> 2 < 0.771 * t1 ->
     match calculate_attenuation [t1; t2] 0.771 1.2 with
     | [y1; y2] => y2 < y1 | _ => False end).
Proof.
  split; [lra|]; split; [lra|].
  apply transmission_decreasing_past_threshold; lra.
Defined.

Lemma transmission_above_narrow_beam_witness :
  0 < 0.771 /\ 0 <= 1.2 /\ Forall (fun t => 0 <= t) [0; 12.5; 25] /\
  Forall2 (fun t y => exp (- (0.771 * t)) <= y /\ 0 < y) [0; 12.5; 25]
          (calculate_attenuation [0; 12.5; 25] 0.771 1.2).
Proof.
  assert (Hts : Forall (fun t => 0 <= t) [0; 12.5; 25])
    by (repeat constructor; lra).
  split; [lra|]; split; [lra|]; split; [exact Hts|].
  apply transmission_above_narrow_beam; [lra | lra | exact Hts].
Defined.

Lemma compute_load_fields_witness :
  exists m, lookup "Lead (Pb)" MATERIALS = Some m /\ 2 * 3 <> 0 /\ 1000 <> 0 /\
  (exists r, compute_load "Lead (Pb)" 10 2 3 1000 = Ok r /\
     area r = 2 * 3 /\ volume_m3 r = area r * (10 / 100) /\
     total_weight r = volume_m3 r * (density m * 1000) /\
     loading r = total_weight r / area r /\
     percent_capacity r = loading r / 1000 * 100) /\
  (exists r, compute_load "Lead (Pb)" 10 2 3 1000 = Ok r /\
     volume_m3 r = 0.6 /\ total_weight r = 6804 /\ loading r = 1134).
Proof.
  eexists; split; [exact lookup_lead|].
  split; [intro; lra|]; split; [intro; lra|].
  apply (compute_load_fields "Lead (Pb)" _ 10 2 3 1000 lookup_lead);
    intro; lra.
Defined.

Lemma compute_load_verdict_witness :
  lookup "Lead (Pb)" MATERIALS <> None /\ 2 * 3 <> 0 /\ 0 < 1000 /\
  exists r, compute_load "Lead (Pb)" 10 2 3 1000 = Ok r /\
    (status r = SAFE <-> loading r <= 1000) /\
    (1000 < loading r -> status r = EXCEEDED (loading r - 1000)).
Proof.
  split; [rewrite lookup_lead; discriminate|].
  split; [intro; lra|]; split; [lra|].
  apply (compute_load_verdict "Lead (Pb)" _ 10 2 3 1000 lookup_lead); [intro|]; lra.
Defined.

Lemma compute_load_area_independent_exact_witness :
  exists m, lookup "Iron (Fe)" MATERIALS = Some m /\
  0 < 2 /\ 0 < 3 /\ 0 < 2.5 /\ 0 < 4 /\ 2000 <> 0 /\
  (exists r1 r2, compute_load "Iron (Fe)" 10 2 3 2000 = Ok r1 /\
    compute_load "Iron (Fe)" 10 2.5 4 2000 = Ok r2 /\
    loading r1 = density m * 1000 * 10 / 100 /\
    loading r1 = loading r2 /\
    percent_capacity r1 = percent_capacity r2 /\
    status r1 = status r2) /\
  (exists r1 r2,
    Binary64.compute_load_f "Lead (Pb)" 10 2 3 1134 = Ok r1 /\
    Binary64.compute_load_f "Lead (Pb)" 10 2.5 3 1134 = Ok r2 /\
    Binary64.loading_f r1 = 0x1.1b80000000001p+10%float /\
    Binary64.loading_f r2 = 1134%float /\
    Binary64.status_f r1 = Binary64.EXCEEDED_f 0x1p-42%float /\
    Binary64.status_f r2 = Binary64.SAFE_f).
Proof.
  eexists; split; [reflexivity|].
  do 4 (split; [lra|]); split; [intro; lra|].
  apply (compute_load_area_independent_exact "Iron (Fe)" _ 10 2000 2 3 2.5 4 eq_refl);
    [lra | lra | lra | lra | intro; lra].
Defined.

Lemma compute_load_fails_only_on_zero_division_witness :
  exists m, lookup "Water (H2O)" MATERIALS = Some m /\
  (forall e, compute_load "Water (H2O)" 10 0 3 2000 = Err e <->
             e = ZeroDivisionError /\ (0 * 3 = 0 \/ 2000 = 0)) /\
  (0 * 3 <> 0 -> 2000 <> 0 -> exists r, compute_load "Water (H2O)" 10 0 3 2000 = Ok r).
Proof.
  eexists; split; [reflexivity|].
  exact (compute_load_fails_only_on_zero_division "Water (H2O)" _ 10 0 3 2000 eq_refl).
Defined.

Lemma build_comparison_unknown_material_witness :
  (exists n, In n ["Lead (Pb)"; "Concrete"] /\ lookup n MATERIALS = None) /\
  (exists n, In n ["Lead (Pb)"; "Concrete"] /\ lookup n MATERIALS = None /\
             build_comparison ["Lead (Pb)"; "Concrete"] 50 = Err (KeyError n)) /\
  build_comparison ["nonexistent"] 50 = Err (KeyError "nonexistent").
Proof.
  assert (Hex : exists n, In n ["Lead (Pb)"; "Concrete"] /\ lookup n MATERIALS = None).
  { exists "Concrete"; split; [right; left; reflexivity | reflexivity]. }
  split; [exact Hex|].
  exact (build_comparison_unknown_material ["Lead (Pb)"; "Concrete"] 50 Hex).
Defined.

(** ** Further properties of the code *)

Lemma lookup_Some_In (k : string) (d : list (string * material)) (v : material) :
  lookup k d = Some v -> In (k, v) d.
Proof.
  induction d as [|[k' v'] d IH]; cbn; [discriminate|].
  destruct (String.eqb_spec k k') as [-> | _].
  - intro E; inversion E; left; reflexivity.
  - intro E; right; exact (IH E).
Qed.

Lemma In_keys_lookup (k : string) (d : list (string * material)) :
  In k (map fst d) -> exists v, lookup k d = Some v.
Proof.
  induction d as [|[k' v'] d IH]; cbn; [intros []|].
  destruct (String.eqb_spec k k') as [-> | Hne]; [eauto|].
  intros [E | Hin]; [congruence | exact (IH Hin)].
Qed.

Lemma map_res_Ok_inv {A B : Type} (f : A -> result B) (xs : list A) (ys : list B) :
  map_res f xs = Ok ys -> Forall2 (fun x y => f x = Ok y) xs ys.
Proof.
  revert ys; induction xs as [|x xs IH]; intros ys; cbn.
  - intro E; inversion E; constructor.
  - destruct (f x) as [y|e] eqn:Hx; cbn; [|discriminate].
    destruct (map_res f xs) as [ys'|e] eqn:Hxs; cbn; [|discriminate].
    intro E; inversion E; constructor; [exact Hx | apply IH; reflexivity].
Qed.

Lemma map_res_total {A B : Type} (f : A -> result B) (xs : list A) :
  (forall x, In x xs -> exists y, f x = Ok y) -> exists ys, map_res f xs = Ok ys.
Proof.
  induction xs as [|x xs IH]; intro H; cbn; [eauto|].
  destruct (H x (or_introl eq_refl)) as [y Hy]; rewrite Hy; cbn.
  destruct IH as [ys Hys]; [intros z Hz; apply H; right; exact Hz|].
  rewrite Hys; cbn; eauto.
Qed.

Lemma Forall2_map_fst {A B : Type} (g : B -> A) (xs : list A) (ys : list B) :
  Forall2 (fun x y => g y = x) xs ys -> map g ys = xs.
Proof. induction 1; cbn; congruence. Qed.

Lemma length_linspace (start stop : R) (num : nat) :
  List.length (linspace start stop num) = num.
Proof. unfold linspace; rewrite length_map, length_seq; reflexivity. Qed.

Lemma linspace_bounds (stop : R) (num : nat) :
  0 <= stop -> (2 <= num)%nat ->
  Forall (fun t => 0 <= t <= stop) (linspace 0 stop num).
Proof.
  intros Hs Hn; apply Forall_forall; intros t Ht.
  unfold linspace in Ht; apply in_map_iff in Ht as [i [<- Hi]].
  apply in_seq in Hi.
  assert (Hk : 0 < INR (num - 1)) by (apply lt_0_INR; lia).
  assert (Hik : INR i <= INR (num - 1)) by (apply le_INR; lia).
  pose proof (pos_INR i) as Hi0.
  set (k := INR (num - 1)) in *.
  assert (Hq : 0 <= (stop - 0) / k) by (unfold Rdiv; apply Rmult_le_pos; [lra | left; apply Rinv_0_lt_compat; exact Hk]).
  assert (Hkq : k * ((stop - 0) / k) = stop) by (field; lra).
  split; [nra|].
  assert (INR i * ((stop - 0) / k) <= k * ((stop - 0) / k)) by (apply Rmult_le_compat_r; assumption).
  lra.
Qed.

Lemma registry_entries_valid :
  Forall (fun p => 0 < mu (snd p) /\ 0 < density (snd p) /\ 1 < b_slope (snd p)) MATERIALS.
Proof. repeat constructor; cbn; lra. Qed.

Lemma lookup_valid (k : string) (m : material) :
  lookup k MATERIALS = Some m -> 0 < mu m /\ 0 < density m /\ 1 < b_slope m.
Proof.
  intro Hm; apply lookup_Some_In in Hm.
  exact (proj1 (Forall_forall _ _) registry_entries_valid (k, m) Hm).
Qed.

(** The materials table: its keys are distinct and every entry has a positive
    attenuation coefficient, a positive density and a build-up slope above 1. *)
Theorem MATERIALS_well_formed :
  NoDup material_options /\
  Forall (fun p => 0 < mu (snd p) /\ 0 < density (snd p) /\ 1 < b_slope (snd p)) MATERIALS.
Proof.
  split; [|exact registry_entries_valid].
  unfold material_options; cbn.
  repeat (apply NoDup_cons; [cbn; intro H; repeat (destruct H as [H | H]; [discriminate H|]); destruct H|]).
  apply NoDup_nil.
Qed.

(** The multiselect's default list names "Concrete", which is not one of the
    options [list(MATERIALS.keys())]; the plotting loop run on the default
    selection raises [KeyError "Concrete"]. *)
Theorem default_selection_not_in_options (max_thick : R) :
  ~ In "Concrete" material_options /\
  build_comparison default_selection max_thick = Err (KeyError "Concrete").
Proof.
  split; [|reflexivity].
  unfold material_options; cbn; intro H; repeat (destruct H as [H | H]; [discriminate H|]); destruct H.
Qed.

Lemma plot_series_Ok_inv (x_vals : list R) (n : string) (y : string * list R) :
  plot_series x_vals n = Ok y ->
  exists m, lookup n MATERIALS = Some m /\
            y = (n, calculate_attenuation x_vals (mu m) (b_slope m)).
Proof.
  unfold plot_series, getitem; destruct (lookup n MATERIALS) as [m|]; cbn; [|discriminate].
  intro E; inversion E; eauto.
Qed.

Lemma table_row_of_Ok_inv (n : string) (r : table_row) :
  table_row_of n = Ok r ->
  exists m, lookup n MATERIALS = Some m /\
            r = {| row_material := n; row_density := density m;
                   row_hvl := py_round2 (hvl m); row_tvl := py_round2 (tvl m) |}.
Proof.
  unfold table_row_of, getitem; destruct (lookup n MATERIALS) as [m|]; cbn; [|discriminate].
  intro E; inversion E; eauto.
Qed.

Lemma build_comparison_Ok_inv (names : list string) (mt : R) s tbl :
  build_comparison names mt = Ok (s, tbl) ->
  map_res (plot_series (linspace 0 mt 200)) names = Ok s /\
  map_res table_row_of names = Ok tbl.
Proof.
  unfold build_comparison.
  destruct (map_res (plot_series _) names) as [s'|e]; cbn; [|discriminate].
  destruct (map_res table_row_of names) as [t'|e]; cbn; [|discriminate].
  intro E; inversion E; split; reflexivity.
Qed.

Lemma Forall2_map_r {A B : Type} (P : A -> Prop) (Q : A -> B -> Prop) (f : A -> B) xs :
  Forall P xs -> (forall x, P x -> Q x (f x)) -> Forall2 Q xs (map f xs).
Proof. intros HP HQ; induction HP; cbn; constructor; auto. Qed.

Lemma Forall2_Forall_r {A B : Type} (Q : A -> B -> Prop) (P : B -> Prop) xs ys :
  Forall2 Q xs ys -> (forall x y, Q x y -> P y) -> Forall P ys.
Proof. intros H HP; induction H; constructor; eauto. Qed.

(** A selection drawn from the widget's options never fails: the comparison
    returns one curve and one table row per selected name, in the order of the
    selection, and every curve has the 200 points of the thickness grid. *)
Theorem build_comparison_options_ok (names : list string) (max_thick : R) :
  (forall n, In n names -> In n material_options) ->
  exists s tbl, build_comparison names max_thick = Ok (s, tbl) /\
    map fst s = names /\ map row_material tbl = names /\
    Forall (fun p => List.length (snd p) = 200%nat) s.
Proof.
  intros Hopt.
  assert (Hk : forall n, In n names -> exists m, lookup n MATERIALS = Some m)
    by (intros n Hn; apply In_keys_lookup, Hopt, Hn).
  destruct (map_res_total (plot_series (linspace 0 max_thick 200)) names) as [s Hs].
  { intros n Hn; destruct (Hk n Hn) as [m Hm].
    rewrite (plot_series_known _ _ _ Hm); eauto. }
  destruct (map_res_total table_row_of names) as [tbl Ht].
  { intros n Hn; destruct (Hk n Hn) as [m Hm].
    unfold table_row_of, getitem; rewrite Hm; cbn; eauto. }
  exists s, tbl; split; [unfold build_comparison; rewrite Hs; cbn; rewrite Ht; reflexivity|].
  apply map_res_Ok_inv in Hs; apply map_res_Ok_inv in Ht.
  split; [|split].
  - apply Forall2_map_fst; eapply Forall2_impl; [|exact Hs].
    intros n y Hy; apply plot_series_Ok_inv in Hy as [m [_ ->]]; reflexivity.
  - apply Forall2_map_fst; eapply Forall2_impl; [|exact Ht].
    intros n r Hr; apply table_row_of_Ok_inv in Hr as [m [_ ->]]; reflexivity.
  - eapply Forall2_Forall_r; [exact Hs|].
    intros n y Hy; apply plot_series_Ok_inv in Hy as [m [_ ->]]; cbn [fst snd].
    rewrite calculate_attenuation_map, length_map; apply length_linspace.
Qed.

(** Every curve the comparison plots, for a non-negative [max_thick], lies at
    or above the narrow-beam curve [exp (-(mu * t))] of its material and is
    strictly positive at each of the 200 grid points (so the log-scale axis
    never receives a zero). *)
Theorem build_comparison_curves_positive (names : list string) (max_thick : R) s tbl :
  0 <= max_thick -> build_comparison names max_thick = Ok (s, tbl) ->
  Forall (fun p => exists m, lookup (fst p) MATERIALS = Some m /\
            Forall2 (fun t y => exp (- (mu m * t)) <= y /\ 0 < y)
                    (linspace 0 max_thick 200) (snd p)) s.
Proof.
  intros Hmt Hb; apply build_comparison_Ok_inv in Hb as [Hs _].
  apply map_res_Ok_inv in Hs.
  eapply Forall2_Forall_r; [exact Hs|].
  intros n y Hy; apply plot_series_Ok_inv in Hy as [m [Hm ->]]; cbn [fst snd row_material row_density row_hvl row_tvl].
  exists m; split; [exact Hm|].
  destruct (lookup_valid _ _ Hm) as [Hmu [_ Hb]].
  rewrite calculate_attenuation_map.
  apply (Forall2_map_r (fun t => 0 <= t <= max_thick)).
  - apply linspace_bounds; [exact Hmt | lia].
  - intros t Ht; apply transmission_bounds; lra.
Qed.

Lemma round_half_even_close (y : R) : - (1 / 2) <= IZR (round_half_even y) - y <= 1 / 2.
Proof.
  destruct (archimed y) as [Hup Hle].
  unfold round_half_even.
  set (f := (up y - 1)%Z).
  assert (Ef : IZR f = IZR (up y) - 1) by (unfold f; rewrite minus_IZR; reflexivity).
  assert (Ef1 : IZR (f + 1) = IZR (up y)) by (rewrite plus_IZR, Ef; ring).
  destruct (Rlt_dec (y - IZR f) (1 / 2));
  [| destruct (Rlt_dec (1 / 2) (y - IZR f)); [| destruct (Z.even f)]];
  try rewrite Ef1; rewrite ?Ef; lra.
Qed.

Lemma py_round2_close (x : R) : x - 1 / 200 <= py_round2 x <= x + 1 / 200.
Proof.
  pose proof (round_half_even_close (x * 100)) as H.
  unfold py_round2; split; lra.
Qed.

Lemma ln2_gt_half : 1 / 2 < ln 2.
Proof.
  assert (He : exp (1 / 2) * exp (1 / 2) <= 3).
  { rewrite <- exp_plus; replace (1 / 2 + 1 / 2) with 1 by field; apply exp_le_3. }
  pose proof (exp_pos (1 / 2)) as Hp.
  assert (Hlt : exp (1 / 2) < 2) by nra.
  rewrite <- (ln_exp (1 / 2)) at 1.
  apply ln_increasing; assumption.
Qed.

Lemma registry_mu_bound :
  Forall (fun p => mu (snd p) <= 1.3) MATERIALS.
Proof. repeat constructor; cbn; lra. Qed.

(** Every row of the reference table belongs to a known material, carries its
    density and the rounded [round(hvl, 2)] and [round(tvl, 2)], and has
    [0 < HVL < TVL] after rounding. *)
Theorem build_comparison_rows_ordered (names : list string) (max_thick : R) s tbl :
  build_comparison names max_thick = Ok (s, tbl) ->
  Forall (fun r => exists m, lookup (row_material r) MATERIALS = Some m /\
            row_density r = density m /\
            row_hvl r = py_round2 (hvl m) /\ row_tvl r = py_round2 (tvl m) /\
            0 < row_hvl r < row_tvl r) tbl.
Proof.
  intros Hb; apply build_comparison_Ok_inv in Hb as [_ Ht].
  apply map_res_Ok_inv in Ht.
  eapply Forall2_Forall_r; [exact Ht|].
  intros n r Hr; apply table_row_of_Ok_inv in Hr as [m [Hm ->]];
    cbn [fst snd row_material row_density row_hvl row_tvl].
  exists m; split; [exact Hm|]; split; [reflexivity|].
  split; [reflexivity|]; split; [reflexivity|].
  destruct (lookup_valid _ _ Hm) as [Hmu _].
  assert (Hmu' : mu m <= 1.3).
  { apply lookup_Some_In in Hm.
    exact (proj1 (Forall_forall _ _) registry_mu_bound (n, m) Hm). }
  pose proof ln2_gt_half as Hl2.
  assert (Hl10 : ln 10 = ln 2 + ln 5)
    by (rewrite <- ln_mult by lra; f_equal; lra).
  assert (Hl5 : ln 2 < ln 5) by (apply ln_increasing; lra).
  assert (Hh : 1 / 200 < hvl m).
  { unfold hvl; apply Rmult_lt_reg_r with (mu m); [exact Hmu|].
    replace (ln 2 / mu m * mu m) with (ln 2) by (field; lra).
    nra. }
  assert (Hd : 1 / 100 < tvl m - hvl m).
  { unfold hvl, tvl; apply Rmult_lt_reg_r with (mu m); [exact Hmu|].
    replace ((ln 10 / mu m - ln 2 / mu m) * mu m) with (ln 10 - ln 2) by (field; lra).
    nra. }
  pose proof (py_round2_close (hvl m)); pose proof (py_round2_close (tvl m)).
  split; lra.
Qed.

(** At the table's HVL the narrow-beam factor [exp (-mfp)] is exactly 1/2 and
    at its TVL exactly 1/10, while the plotted broad-beam transmission there
    is [(1 + b_slope * ln 2) / 2] and [(1 + b_slope * ln 10) / 10]: the
    build-up factor lifts the curve above the layer's nominal reduction. *)
Theorem transmission_at_hvl_tvl (m : material) :
  0 < mu m ->
  exp (- (mu m * hvl m)) = / 2 /\ exp (- (mu m * tvl m)) = / 10 /\
  calculate_attenuation [hvl m; tvl m] (mu m) (b_slope m) =
    [(1 + b_slope m * ln 2) / 2; (1 + b_slope m * ln 10) / 10].
Proof.
  intros Hmu.
  assert (E2 : mu m * hvl m = ln 2) by (unfold hvl; field; lra).
  assert (E10 : mu m * tvl m = ln 10) by (unfold tvl; field; lra).
  rewrite calculate_attenuation_map; cbn [map].
  rewrite E2, E10, !exp_Ropp, !exp_ln by lra.
  split; [reflexivity|]; split; [reflexivity|].
  reflexivity.
Qed.

Lemma transmission_overshoot (mu b t : R) :
  0 < mu -> 1 < b -> 0 < t -> b * (mu * t) < b - 1 ->
  1 < (1 + b * (mu * t)) * exp (- (mu * t)).
Proof.
  intros Hmu Hb Ht Hx.
  set (x := mu * t) in *.
  assert (Hx0 : 0 < x) by (unfold x; nra).
  pose proof (exp_ineq1_le (- x)) as He.
  assert (Hc : 0 < 1 + b * x) by nra.
  assert (H1 : (1 + b * x) * (1 + - x) <= (1 + b * x) * exp (- x))
    by (apply Rmult_le_compat_l; lra).
  assert (H2 : 0 < x * (b - 1 - b * x)) by (apply Rmult_lt_0_compat; lra).
  nra.
Qed.

(** With a build-up slope above 1 the transmission exceeds 1 at every
    thickness whose mean free path lies strictly between 0 and
    [(b_slope - 1) / b_slope]. *)
Theorem transmission_exceeds_one_near_zero (mu b_slope t : R) :
  0 < mu -> 1 < b_slope -> 0 < t -> b_slope * (mu * t) < b_slope - 1 ->
  exists y, calculate_attenuation [t] mu b_slope = [y] /\ 1 < y.
Proof.
  intros Hmu Hb Ht Hx; rewrite calculate_attenuation_map; cbn [map].
  eexists; split; [reflexivity|]; apply transmission_overshoot; assumption.
Qed.

(** With a build-up slope of at most 1 the transmission never exceeds 1 on
    non-negative thicknesses. *)
Theorem transmission_at_most_one (ts : list R) (mu b_slope : R) :
  0 <= mu -> 0 <= b_slope <= 1 -> Forall (fun t => 0 <= t) ts ->
  Forall (fun y => y <= 1) (calculate_attenuation ts mu b_slope).
Proof.
  intros Hmu Hb Hts; rewrite calculate_attenuation_map.
  apply Forall_map; eapply Forall_impl; [|exact Hts]; intros t Ht; cbn.
  set (x := mu * t).
  assert (Hx : 0 <= x) by (unfold x; nra).
  pose proof (exp_ineq1_le x) as He.
  pose proof (exp_pos (- x)) as Hp.
  assert (E : exp x * exp (- x) = 1) by (rewrite <- exp_plus, Rplus_opp_r; apply exp_0).
  assert (H1 : (1 + b_slope * x) * exp (- x) <= exp x * exp (- x))
    by (apply Rmult_le_compat_r; nra).
  lra.
Qed.

(** Every material of the table has a build-up slope above 1, so each curve
    rises above 1 at some positive thickness before it falls. *)
Theorem MATERIALS_transmission_exceeds_one :
  Forall (fun p => exists t, 0 < t /\
    exists y, calculate_attenuation [t] (mu (snd p)) (b_slope (snd p)) = [y] /\ 1 < y)
  MATERIALS.
Proof.
  eapply Forall_impl; [|exact registry_entries_valid].
  intros [k m] [Hmu [_ Hb]]; cbn [snd] in *.
  exists ((b_slope m - 1) / (2 * b_slope m * mu m)); split.
  - apply Rdiv_lt_0_compat; [lra|]. apply Rmult_lt_0_compat; [lra | exact Hmu].
  - rewrite calculate_attenuation_map; cbn [map]; eexists; split; [reflexivity|].
    apply transmission_overshoot; [exact Hmu | exact Hb | |].
    + apply Rdiv_lt_0_compat; [lra|]. apply Rmult_lt_0_compat; [lra | exact Hmu].
    + replace (b_slope m * (mu m * ((b_slope m - 1) / (2 * b_slope m * mu m))))
        with ((b_slope m - 1) / 2) by (field; lra).
      lra.
Qed.

Lemma compute_load_Ok_cond (name : string) (t h w f : R) (r : load_result) :
  compute_load name t h w f = Ok r ->
  exists m, lookup name MATERIALS = Some m /\ h * w <> 0 /\ f <> 0.
Proof.
  intro Hr.
  destruct (lookup name MATERIALS) as [m|] eqn:Hm;
    [|unfold compute_load, getitem in Hr; rewrite Hm in Hr; discriminate].
  exists m; split; [reflexivity|].
  destruct (Req_dec_T (h * w) 0) as [Ha | Ha];
  [| destruct (Req_dec_T f 0) as [Hf | Hf]].
  - assert (E : compute_load name t h w f = Err ZeroDivisionError)
      by (apply (compute_load_err name m); auto).
    congruence.
  - assert (E : compute_load name t h w f = Err ZeroDivisionError)
      by (apply (compute_load_err name m); auto).
    congruence.
  - split; assumption.
Qed.

(** For a positive floor limit, the displayed "Floor Capacity Used" agrees
    with the verdict: the wall is SAFE exactly when the percentage is at most
    100, and an EXCEEDED verdict carries a strictly positive overage. *)
Theorem compute_load_percent_matches_verdict (name : string) (t h w f : R) (r : load_result) :
  0 < f -> compute_load name t h w f = Ok r ->
  (status r = SAFE <-> percent_capacity r <= 100) /\
  (forall o, status r = EXCEEDED o -> 0 < o /\ 100 < percent_capacity r).
Proof.
  intros Hf Hr.
  destruct (compute_load_Ok_cond _ _ _ _ _ _ Hr) as [m [Hm [Ha Hf0]]].
  rewrite (compute_load_ok name m t h w f Hm Ha Hf0) in Hr.
  inversion Hr; subst r; cbn [status percent_capacity]; clear Hr.
  set (L := h * w * (t / 100) * (density m * 1000) / (h * w)).
  assert (EL : L / f * 100 * f = L * 100) by (field; lra).
  destruct (Rlt_dec f L) as [Hlt | Hge]; split.
  - split; [discriminate | intro; nra].
  - intros o E; inversion E; split; nra.
  - split; [intros _; nra | intros _; reflexivity].
  - intros o E; discriminate.
Qed.

(** ** Witnesses of the further properties *)

Lemma build_comparison_options_ok_witness :
  (forall n, In n ["Lead (Pb)"; "Water (H2O)"] -> In n material_options) /\
  exists s tbl, build_comparison ["Lead (Pb)"; "Water (H2O)"] 50 = Ok (s, tbl) /\
    map fst s = ["Lead (Pb)"; "Water (H2O)"] /\
    map row_material tbl = ["Lead (Pb)"; "Water (H2O)"] /\
    Forall (fun p => List.length (snd p) = 200%nat) s.
Proof.
  assert (H : forall n, In n ["Lead (Pb)"; "Water (H2O)"] -> In n material_options).
  { intros n [<- | [<- | []]]; unfold material_options; cbn; auto 20. }
  split; [exact H|].
  exact (build_comparison_options_ok _ 50 H).
Defined.

Lemma build_comparison_curves_positive_witness :
  exists s tbl, build_comparison ["Lead (Pb)"] 50 = Ok (s, tbl) /\ 0 <= 50 /\
  Forall (fun p => exists m, lookup (fst p) MATERIALS = Some m /\
            Forall2 (fun t y => exp (- (mu m * t)) <= y /\ 0 < y)
                    (linspace 0 50 200) (snd p)) s.
Proof.
  do 2 eexists.
  assert (Hb : build_comparison ["Lead (Pb)"] 50 = Ok (_, _)) by reflexivity.
  split; [exact Hb|]; split; [lra|].
  exact (build_comparison_curves_positive _ 50 _ _ ltac:(lra) Hb).
Defined.

Lemma build_comparison_rows_ordered_witness :
  exists s tbl, build_comparison ["Iron (Fe)"; "Lead (Pb)"] 20 = Ok (s, tbl) /\
  Forall (fun r => exists m, lookup (row_material r) MATERIALS = Some m /\
            row_density r = density m /\
            row_hvl r = py_round2 (hvl m) /\ row_tvl r = py_round2 (tvl m) /\
            0 < row_hvl r < row_tvl r) tbl.
Proof.
  do 2 eexists.
  assert (Hb : build_comparison ["Iron (Fe)"; "Lead (Pb)"] 20 = Ok (_, _)) by reflexivity.
  split; [exact Hb|].
  exact (build_comparison_rows_ordered _ 20 _ _ Hb).
Defined.

Lemma transmission_at_hvl_tvl_witness :
  exists m, lookup "Lead (Pb)" MATERIALS = Some m /\ 0 < mu m /\
  exp (- (mu m * hvl m)) = / 2 /\ exp (- (mu m * tvl m)) = / 10 /\
  calculate_attenuation [hvl m; tvl m] (mu m) (b_slope m) =
    [(1 + b_slope m * ln 2) / 2; (1 + b_slope m * ln 10) / 10].
Proof.
  eexists; split; [exact lookup_lead|].
  assert (Hmu : 0 < mu {| mu := 0.771; density := 11.34; color := "#7f8c8d"; b_slope := 1.2 |})
    by (cbn; lra).
  split; [exact Hmu|].
  exact (transmission_at_hvl_tvl _ Hmu).
Defined.

Lemma transmission_exceeds_one_near_zero_witness :
  0 < 0.771 /\ 1 < 1.2 /\ 0 < 0.1 /\ 1.2 * (0.771 * 0.1) < 1.2 - 1 /\
  exists y, calculate_attenuation [0.1] 0.771 1.2 = [y] /\ 1 < y.
Proof.
  split; [lra|]; split; [lra|]; split; [lra|]; split; [lra|].
  apply transmission_exceeds_one_near_zero; lra.
Defined.

Lemma transmission_at_most_one_witness :
  0 <= 0.5 /\ 0 <= 0.8 <= 1 /\ Forall (fun t => 0 <= t) [0; 1; 10] /\
  Forall (fun y => y <= 1) (calculate_attenuation [0; 1; 10] 0.5 0.8).
Proof.
  assert (Hts : Forall (fun t => 0 <= t) [0; 1; 10]) by (repeat constructor; lra).
  split; [lra|]; split; [lra|]; split; [exact Hts|].
  apply transmission_at_most_one; [lra | lra | exact Hts].
Defined.

Lemma compute_load_percent_matches_verdict_witness :
  exists r, 0 < 1000 /\ compute_load "Lead (Pb)" 10 2 3 1000 = Ok r /\
  (status r = SAFE <-> percent_capacity r <= 100) /\
  (forall o, status r = EXCEEDED o -> 0 < o /\ 100 < percent_capacity r).
Proof.
  eexists.
  assert (Hr := compute_load_ok "Lead (Pb)" _ 10 2 3 1000 lookup_lead
                  ltac:(intro; lra) ltac:(intro; lra)).
  split; [lra|]; split; [exact Hr|].
  exact (compute_load_percent_matches_verdict "Lead (Pb)" 10 2 3 1000 _ ltac:(lra) Hr).
Defined.

